(** * github-app-auth: the installation-token lifecycle of [src/lib.rs]

    Shallow embedding of the crate's single source file.  The external
    collaborators (system clock, HTTP client, JSON decoder and the
    [jsonwebtoken] signer) are fields of an explicit [World] that every
    effectful function threads; the trace fields [w_signs] and [w_reqs]
    record the calls made to the signer and to the network. *)

From Stdlib Require Import ZArith List String Ascii Bool Lia.
Import ListNotations.
Open Scope string_scope.
Open Scope Z_scope.

(** ** Rust's [Result] *)

Inductive Result (A E : Type) : Type :=
| Ok : A -> Result A E
| Err : E -> Result A E.
Arguments Ok {A E} _.
Arguments Err {A E} _.

(** ** Machine integers and time *)

Definition u64_modulus : Z := 2 ^ 64.

(** [a + b] on [u64], wrapping as a release build does. *)
Definition u64_add (a b : Z) : Z := (a + b) mod u64_modulus.

(** [std::time::SystemTime] as nanoseconds relative to [UNIX_EPOCH];
    on Linux the seconds part is an [i64]. *)
Definition SystemTime := Z.
Definition UNIX_EPOCH : SystemTime := 0.
Definition nanos_per_sec : Z := 1000000000.

Definition system_time_in_range (t : SystemTime) : Prop :=
  - 2 ^ 63 * nanos_per_sec <= t < 2 ^ 63 * nanos_per_sec.

(** [std::time::Duration] as a non-negative nanosecond count. *)
Definition Duration := Z.
Definition as_secs (d : Duration) : Z := d / nanos_per_sec.

(** ** Errors *)

(** Errors of [jsonwebtoken::errors::Error] that matter here. *)
Inductive JwtErrorKind :=
| InvalidAlgorithm
| InvalidRsaKey
| OtherJwtError.

(** Causes of a [reqwest::Error]. *)
Inductive ReqwestError :=
| BuilderError
| TransportError
| StatusError (status : Z)
| DecodeError.

(** [AuthError] (lib.rs, lines 37-55). *)
Inductive AuthError :=
| JwtError (e : JwtErrorKind)
| InvalidHeaderValue
| ReqwestErr (e : ReqwestError)
| TimeError.

(** ** Data types of the crate *)

(** [GithubAuthParams] (lib.rs, lines 181-213). *)
Record GithubAuthParams := {
  user_agent : string;
  private_key : list Byte.byte;
  installation_id : Z;
  app_id : Z
}.

(** [JwtClaims] (lib.rs, lines 57-65). *)
Record JwtClaims := {
  iat : Z;
  exp : Z;
  iss : Z
}.

(** [RawInstallationToken] (lib.rs, lines 85-89); [expires_at] as seconds
    since the epoch. *)
Record RawInstallationToken := {
  raw_token : string;
  expires_at : Z
}.

(** [reqwest::blocking::Client]: the configuration it carries. *)
Record Client := {
  client_user_agent : string
}.

(** The part of [jsonwebtoken] used by the crate. *)
Inductive Algorithm := HS256 | HS384 | HS512 | RS256 | RS384 | RS512 | ES256.

Inductive AlgorithmFamily := Hmac | Rsa | Ec.

Definition family (a : Algorithm) : AlgorithmFamily :=
  match a with
  | HS256 | HS384 | HS512 => Hmac
  | RS256 | RS384 | RS512 => Rsa
  | ES256 => Ec
  end.

Definition family_eqb (f g : AlgorithmFamily) : bool :=
  match f, g with
  | Hmac, Hmac | Rsa, Rsa | Ec, Ec => true
  | _, _ => false
  end.

Record JwtHeader := {
  alg : Algorithm
}.

(** [jsonwebtoken::Header::default()]: HS256. *)
Definition default_jwt_header : JwtHeader := {| alg := HS256 |}.

Record EncodingKey := {
  key_family : AlgorithmFamily;
  key_content : list Byte.byte
}.

(** [EncodingKey::from_secret]: an HMAC secret. *)
Definition from_secret (secret : list Byte.byte) : EncodingKey :=
  {| key_family := Hmac; key_content := secret |}.

(** One call of [jsonwebtoken::encode], as recorded in the trace. *)
Record SignCall := {
  sc_header : JwtHeader;
  sc_claims : JwtClaims;
  sc_key : EncodingKey
}.

(** An HTTP request as it leaves the client. *)
Record Request := {
  req_method : string;
  req_url : string;
  req_headers : list (string * string)
}.

Record Response := {
  resp_status : Z;
  resp_body : string
}.

(** ** The outside world *)

(** Everything the crate reads from outside: the clock (one reading per
    [SystemTime::now()]), [reqwest::blocking::Client::builder().build()],
    the signer behind [jsonwebtoken::encode], the network and the JSON
    decoder behind [Response::json].  [w_signs] and [w_reqs] are the traces
    of signer calls and of requests put on the wire, newest first. *)
Record World := {
  w_clock : nat -> SystemTime;
  w_tick : nat;
  w_build_client : string -> option ReqwestError;
  w_sign : JwtHeader -> JwtClaims -> EncodingKey -> Result string JwtErrorKind;
  w_signs : list SignCall;
  w_send : nat -> Request -> Result Response ReqwestError;
  w_reqs : list Request;
  w_json : string -> Result RawInstallationToken ReqwestError
}.

Definition w_set_tick (w : World) (n : nat) : World :=
  {| w_clock := w_clock w; w_tick := n; w_build_client := w_build_client w;
     w_sign := w_sign w; w_signs := w_signs w; w_send := w_send w;
     w_reqs := w_reqs w; w_json := w_json w |}.

Definition w_log_sign (w : World) (c : SignCall) : World :=
  {| w_clock := w_clock w; w_tick := w_tick w; w_build_client := w_build_client w;
     w_sign := w_sign w; w_signs := c :: w_signs w; w_send := w_send w;
     w_reqs := w_reqs w; w_json := w_json w |}.

Definition w_log_req (w : World) (r : Request) : World :=
  {| w_clock := w_clock w; w_tick := w_tick w; w_build_client := w_build_client w;
     w_sign := w_sign w; w_signs := w_signs w; w_send := w_send w;
     w_reqs := r :: w_reqs w; w_json := w_json w |}.

(** ** A state and error monad *)

Definition ST (S A : Type) : Type := S -> Result A AuthError * S.

Definition ret {S A} (a : A) : ST S A := fun s => (Ok a, s).

Definition bind {S A B} (m : ST S A) (k : A -> ST S B) : ST S B :=
  fun s => match m s with
           | (Ok a, s') => k a s'
           | (Err e, s') => (Err e, s')
           end.

(** The [?] operator on a pure [Result]. *)
Definition raise {S A} (r : Result A AuthError) : ST S A :=
  fun s => (r, s).

Notation "x <- m ;; k" := (bind m (fun x => k))
  (at level 61, m at next level, right associativity).
Notation "m ;;; k" := (bind m (fun _ => k))
  (at level 61, right associativity).

Definition map_err {A E} (f : E -> AuthError) (r : Result A E) : Result A AuthError :=
  match r with Ok a => Ok a | Err e => Err (f e) end.

(** *** Effects on the world *)

(** [SystemTime::now()]. *)
Definition now : ST World SystemTime :=
  fun w => (Ok (w_clock w (w_tick w)), w_set_tick w (S (w_tick w))).

(** [SystemTime::duration_since]: fails when [earlier] is later. *)
Definition duration_since (self earlier : SystemTime) : Result Duration AuthError :=
  if earlier <=? self then Ok (self - earlier) else Err TimeError.

(** [jsonwebtoken::encode(&header, &claims, &key)?]. *)
Definition encode (h : JwtHeader) (c : JwtClaims) (k : EncodingKey) : ST World string :=
  fun w => (map_err JwtError (w_sign w h c k),
            w_log_sign w {| sc_header := h; sc_claims := c; sc_key := k |}).

(** [Client::builder().user_agent(ua).build()?]. *)
Definition build_client (ua : string) : ST World Client :=
  fun w => match w_build_client w ua with
           | None => (Ok {| client_user_agent := ua |}, w)
           | Some e => (Err (ReqwestErr e), w)
           end.

(** *** Headers *)

(** [HeaderValue::from_str]: visible ASCII, obs-text and tab. *)
Definition header_value_byte_ok (c : ascii) : bool :=
  let n := nat_of_ascii c in
  ((32 <=? n)%nat && negb (n =? 127)%nat) || (n =? 9)%nat.

Definition header_value_valid (s : string) : bool :=
  forallb header_value_byte_ok (list_ascii_of_string s).

(** [val.parse::<HeaderValue>()?]. *)
Definition parse_header_value (s : string) : Result string AuthError :=
  if header_value_valid s then Ok s else Err InvalidHeaderValue.

(** Header names are stored lower-case, as [http::HeaderName] does. *)
Definition ascii_lower (c : ascii) : ascii :=
  let n := nat_of_ascii c in
  if ((65 <=? n)%nat && (n <=? 90)%nat) then ascii_of_nat (n + 32) else c.

Definition header_name (s : string) : string :=
  string_of_list_ascii (map ascii_lower (list_ascii_of_string s)).

(** [http::HeaderMap] as an association list of lower-case names. *)
Definition HeaderMap := list (string * string).

Definition header_map_new : HeaderMap := [].

(** [HeaderMap::insert]: replaces any entry of the same name. *)
Definition header_map_insert (name : string) (v : string) (m : HeaderMap) : HeaderMap :=
  let n := header_name name in
  (n, v) :: List.filter (fun p => negb (String.eqb (fst p) n)) m.

(** [HeaderMap::get]. *)
Definition header_map_get (name : string) (m : HeaderMap) : option string :=
  let n := header_name name in
  match List.find (fun p => String.eqb (fst p) n) m with
  | Some p => Some (snd p)
  | None => None
  end.

(** *** Requests *)

(** [reqwest::blocking::RequestBuilder]: a request, or the error the
    builder recorded. *)
Definition RequestBuilder := Result Request ReqwestError.

Definition client_post (c : Client) (url : string) : RequestBuilder :=
  Ok {| req_method := "POST"; req_url := url;
        req_headers := [(header_name "user-agent", client_user_agent c)] |}.

Definition rb_header (name v : string) (rb : RequestBuilder) : RequestBuilder :=
  match rb with
  | Ok r => if header_value_valid v
            then Ok {| req_method := req_method r; req_url := req_url r;
                       req_headers := app (req_headers r) [(header_name name, v)] |}
            else Err BuilderError
  | Err e => Err e
  end.

Definition bearer_auth (token : string) (rb : RequestBuilder) : RequestBuilder :=
  rb_header "Authorization" ("Bearer " ++ token) rb.

(** [RequestBuilder::send()?]: a request is on the wire only when the
    builder holds no error. *)
Definition send (rb : RequestBuilder) : ST World Response :=
  fun w => match rb with
           | Err e => (Err (ReqwestErr e), w)
           | Ok r => (map_err ReqwestErr (w_send w (List.length (w_reqs w)) r), w_log_req w r)
           end.

(** [Response::error_for_status()?]: 4xx and 5xx are errors. *)
Definition error_for_status (r : Response) : Result Response AuthError :=
  if (400 <=? resp_status r) && (resp_status r <? 600)
  then Err (ReqwestErr (StatusError (resp_status r)))
  else Ok r.

(** [Response::json()?]. *)
Definition json (r : Response) : ST World RawInstallationToken :=
  fun w => (map_err ReqwestErr (w_json w (resp_body r)), w).

(** Decimal rendering of a [u64] by [format!]. *)
Fixpoint dec_digits (fuel : nat) (n : Z) (acc : string) : string :=
  match fuel with
  | O => acc
  | S f =>
      let acc' := String (ascii_of_nat (48 + Z.to_nat (n mod 10))) acc in
      if n <? 10 then acc' else dec_digits f (n / 10) acc'
  end.

Definition u64_to_string (n : Z) : string := dec_digits 20 n "".

(** ** The crate's functions *)

Definition MACHINE_MAN_PREVIEW : string :=
  "application/vnd.github.machine-man-preview+json".

(** [JwtClaims::new] (lib.rs, lines 67-81). *)
Definition JwtClaims_new (params : GithubAuthParams) : ST World JwtClaims :=
  t <- now ;;
  d <- raise (duration_since t UNIX_EPOCH) ;;
  let now := as_secs d in
  ret {| iat := now; exp := u64_add now 60; iss := app_id params |}.

(** [header.alg = ...]. *)
Definition set_alg (h : JwtHeader) (a : Algorithm) : JwtHeader := {| alg := a |}.

Definition access_tokens_url (installation_id : Z) : string :=
  "https://api.github.com/app/installations/" ++ u64_to_string installation_id
  ++ "/access_tokens".

(** [get_installation_token] (lib.rs, lines 96-118). *)
Definition get_installation_token (client : Client) (params : GithubAuthParams)
  : ST World RawInstallationToken :=
  claims <- JwtClaims_new params ;;
  let header := set_alg default_jwt_header RS256 in
  let private_key := from_secret (private_key params) in
  token <- encode header claims private_key ;;
  let url := access_tokens_url (installation_id params) in
  resp <- send (rb_header "Accept" MACHINE_MAN_PREVIEW
                  (bearer_auth token (client_post client url))) ;;
  resp <- raise (error_for_status resp) ;;
  json resp.

(** [InstallationToken] (lib.rs, lines 122-132). *)
Record InstallationToken := {
  client : Client;
  token : string;
  fetch_time : SystemTime;
  params : GithubAuthParams
}.

(** [InstallationToken::new] (lib.rs, lines 137-150). *)
Definition InstallationToken_new (params : GithubAuthParams) : ST World InstallationToken :=
  client <- build_client (user_agent params) ;;
  raw <- get_installation_token client params ;;
  t <- now ;;
  ret {| client := client; token := raw_token raw; fetch_time := t; params := params |}.

(** *** Methods on [&mut self] *)

(** The world together with the receiver: mutations of [self] made before
    a [?] survive the error, as with a Rust [&mut self]. *)
Definition Sys := (World * InstallationToken)%type.

Definition lift_world {A} (m : ST World A) : ST Sys A :=
  fun '(w, s) => let '(r, w') := m w in (r, (w', s)).

Definition get_self : ST Sys InstallationToken := fun '(w, s) => (Ok s, (w, s)).

Definition set_token (v : string) : ST Sys unit :=
  fun '(w, s) => (Ok tt, (w, {| client := client s; token := v;
                               fetch_time := fetch_time s; params := params s |})).

Definition set_fetch_time (t : SystemTime) : ST Sys unit :=
  fun '(w, s) => (Ok tt, (w, {| client := client s; token := token s;
                               fetch_time := t; params := params s |})).

Definition REFRESH_AFTER_SECS : Z := 55 * 60.

(** [InstallationToken::refresh] (lib.rs, lines 164-176). *)
Definition refresh : ST Sys unit :=
  t <- lift_world now ;;
  self <- get_self ;;
  elapsed <- raise (duration_since t (fetch_time self)) ;;
  if as_secs elapsed >? REFRESH_AFTER_SECS then
    raw <- lift_world (get_installation_token (client self) (params self)) ;;
    set_token (raw_token raw) ;;;
    t' <- lift_world now ;;
    set_fetch_time t'
  else ret tt.

(** [InstallationToken::header] (lib.rs, lines 156-162). *)
Definition header : ST Sys HeaderMap :=
  refresh ;;;
  self <- get_self ;;
  let headers := header_map_new in
  let val := "token " ++ token self in
  v <- raise (parse_header_value val) ;;
  ret (header_map_insert "Authorization" v headers).

(** The header [header()] builds from a manager, once refreshed. *)
Definition build_header (s : InstallationToken) : Result HeaderMap AuthError :=
  match parse_header_value ("token " ++ token s) with
  | Ok v => Ok (header_map_insert "Authorization" v header_map_new)
  | Err e => Err e
  end.

(** A caller issuing [n] [header()] calls on one manager, going on after
    an error as a caller may: the results, newest last. *)
Fixpoint header_calls (n : nat) (st : Sys) : list (Result HeaderMap AuthError) * Sys :=
  match n with
  | O => ([], st)
  | S k =>
      let '(r, st1) := header st in
      let '(rs, st2) := header_calls k st1 in
      (r :: rs, st2)
  end.

(** ** [jsonwebtoken::encode] as the library implements it

    Since the introduction of [EncodingKey] (jsonwebtoken 7), [encode]
    first rejects a key whose algorithm family differs from the family of
    [header.alg] with [ErrorKind::InvalidAlgorithm], and only then signs
    with the primitive of that family ([sign_prim]). *)
Definition jsonwebtoken_encode
    (sign_prim : JwtHeader -> JwtClaims -> EncodingKey -> Result string JwtErrorKind)
    (h : JwtHeader) (c : JwtClaims) (k : EncodingKey) : Result string JwtErrorKind :=
  if negb (family_eqb (key_family k) (family (alg h))) then Err InvalidAlgorithm
  else sign_prim h c k.

(** ** Concrete worlds *)

Definition clock_of (ts : list SystemTime) : nat -> SystemTime :=
  fun n => nth n ts 0.

(** A world with the given clock readings, a signer that always succeeds,
    a server answering [201] and a decoder yielding token [tok]. *)
Definition sample_world (ts : list SystemTime) (tok : string) : World :=
  {| w_clock := clock_of ts; w_tick := 0;
     w_build_client := fun _ => None;
     w_sign := fun _ _ _ => Ok "jwt";
     w_signs := [];
     w_send := fun _ _ => Ok {| resp_status := 201; resp_body := "{}" |};
     w_reqs := [];
     w_json := fun _ => Ok {| raw_token := tok; expires_at := 1468275250 |} |}.

Definition sample_params : GithubAuthParams :=
  {| user_agent := "my-cool-user-agent"; private_key := [];
     installation_id := 5678; app_id := 1234 |}.

Definition sample_manager (tok : string) (fetched : SystemTime) : InstallationToken :=
  {| client := {| client_user_agent := "my-cool-user-agent" |};
     token := tok; fetch_time := fetched; params := sample_params |}.

(** The same world with the network down, and with the signer of
    [jsonwebtoken] over a primitive that always succeeds. *)
Definition offline_world (ts : list SystemTime) : World :=
  let w := sample_world ts "T2" in
  {| w_clock := w_clock w; w_tick := w_tick w; w_build_client := w_build_client w;
     w_sign := w_sign w; w_signs := w_signs w;
     w_send := fun _ _ => Err TransportError;
     w_reqs := w_reqs w; w_json := w_json w |}.

Definition jsonwebtoken_world (ts : list SystemTime) : World :=
  let w := sample_world ts "T2" in
  {| w_clock := w_clock w; w_tick := w_tick w; w_build_client := w_build_client w;
     w_sign := jsonwebtoken_encode (fun _ _ _ => Ok "sig"); w_signs := w_signs w;
     w_send := w_send w; w_reqs := w_reqs w; w_json := w_json w |}.

(** A token with a line feed, as a misbehaving server could return. *)
Definition token_with_newline : string := "T2" ++ String (ascii_of_nat 10) "".

Definition sec (n : Z) : SystemTime := n * nanos_per_sec.

Definition run_header (st : Sys) : Result HeaderMap AuthError * InstallationToken :=
  let '(r, (_, s)) := header st in (r, s).

(** Reading a decimal numeral back, digit by digit. *)
Fixpoint dec_value_acc (acc : Z) (s : string) : Z :=
  match s with
  | EmptyString => acc
  | String c s' => dec_value_acc (acc * 10 + (Z.of_nat (nat_of_ascii c) - 48)) s'
  end.

Definition dec_value (s : string) : Z := dec_value_acc 0 s.

(** The claims [JwtClaims::new] builds from a clock reading [t] at or
    after the epoch. *)
Definition claims_at (p : GithubAuthParams) (t : SystemTime) : JwtClaims :=
  {| iat := as_secs t; exp := u64_add (as_secs t) 60; iss := app_id p |}.

(** The request [get_installation_token] puts on the wire for the signed
    assertion [jwt]. *)
Definition access_token_request (c : Client) (p : GithubAuthParams) (jwt : string) : Request :=
  {| req_method := "POST";
     req_url := access_tokens_url (installation_id p);
     req_headers := [("user-agent", client_user_agent c);
                     ("authorization", "Bearer " ++ jwt);
                     ("accept", MACHINE_MAN_PREVIEW)] |}.

Example access_tokens_url_5678 :
  access_tokens_url 5678 = "https://api.github.com/app/installations/5678/access_tokens".
Proof. reflexivity. Qed.

Example header_fresh_T1 :
  run_header (sample_world [sec 1000] "T2", sample_manager "T1" (sec 1000))
  = (Ok [("authorization", "token T1")], sample_manager "T1" (sec 1000)).
Proof. reflexivity. Qed.

Example header_stale_T2 :
  run_header (sample_world [sec 4360; sec 4360; sec 4361] "T2", sample_manager "T1" (sec 1000))
  = (Ok [("authorization", "token T2")], sample_manager "T2" (sec 4361)).
Proof. reflexivity. Qed.

(** ** Shape of one exchange *)

Ltac split_matches :=
  repeat (cbn beta iota zeta delta -[header_value_valid access_tokens_url u64_add as_secs];
          match goal with
          | |- context [match ?x with _ => _ end] =>
              lazymatch x with
              | context [match _ with _ => _ end] => fail
              | _ => destruct x eqn:?
              end
          end).

(** One exchange puts at most one request on the wire, exactly one when it
    succeeds, and changes no other part of the world than the clock
    position and the signer trace. *)
Lemma get_installation_token_reqs c p w :
  let '(r, w') := get_installation_token c p w in
  w_clock w' = w_clock w /\
  (w_reqs w' = w_reqs w \/ exists q, w_reqs w' = q :: w_reqs w) /\
  (forall raw, r = Ok raw -> exists q, w_reqs w' = q :: w_reqs w).
Proof.
  unfold get_installation_token, JwtClaims_new, bind, now, raise, ret,
    encode, send, json, duration_since.
  split_matches; cbn in *; try congruence;
    repeat split; eauto; intros; congruence.
Qed.

(** ** Unfolding [refresh] and [header] *)

Lemma refresh_eq w s :
  refresh (w, s) =
  let t := w_clock w (w_tick w) in
  let w0 := w_set_tick w (S (w_tick w)) in
  if fetch_time s <=? t then
    if as_secs (t - fetch_time s) >? REFRESH_AFTER_SECS then
      match get_installation_token (client s) (params s) w0 with
      | (Ok raw, w1) =>
          (Ok tt, (w_set_tick w1 (S (w_tick w1)),
                   {| client := client s; token := raw_token raw;
                      fetch_time := w_clock w1 (w_tick w1); params := params s |}))
      | (Err e, w1) => (Err e, (w1, s))
      end
    else (Ok tt, (w0, s))
  else (Err TimeError, (w0, s)).
Proof.
  unfold refresh, bind, lift_world, get_self, raise, now, duration_since, ret.
  cbn beta iota zeta.
  destruct (fetch_time s <=? w_clock w (w_tick w)); [|reflexivity].
  destruct (as_secs _ >? REFRESH_AFTER_SECS); [|reflexivity].
  destruct (get_installation_token (client s) (params s) _) as [[raw|e] w1];
    reflexivity.
Qed.

Lemma header_eq st :
  header st =
  match refresh st with
  | (Ok _, (w', s')) => (build_header s', (w', s'))
  | (Err e, st') => (Err e, st')
  end.
Proof.
  unfold header, bind at 1.
  destruct (refresh st) as [[[]|e] [w' s']]; [|reflexivity].
  unfold bind, get_self, raise, build_header, ret.
  destruct (parse_header_value _); reflexivity.
Qed.

Lemma get_installation_token_tick c p w :
  w_tick (snd (get_installation_token c p w)) = S (w_tick w).
Proof.
  unfold get_installation_token, JwtClaims_new, bind, now, raise, ret,
    encode, send, json, duration_since.
  split_matches; cbn in *; congruence.
Qed.

Lemma stale_as_secs (d : Z) :
  sec 3301 <= d -> REFRESH_AFTER_SECS < as_secs d.
Proof.
  unfold sec, as_secs, REFRESH_AFTER_SECS, nanos_per_sec. intros H.
  assert (3301 <= d / 1000000000) by (apply Z.div_le_lower_bound; lia). lia.
Qed.

Lemma fresh_as_secs (d : Z) :
  0 <= d -> d <= sec 3300 -> as_secs d <= REFRESH_AFTER_SECS.
Proof.
  unfold sec, as_secs, REFRESH_AFTER_SECS, nanos_per_sec. intros H0 H.
  assert (d / 1000000000 <= 3300) by (apply Z.div_le_upper_bound; lia). lia.
Qed.

(** ** Claims *)

(** C1 (as amended).  When the elapsed time since the last fetch, truncated
    to whole seconds, exceeds 3300 (elapsed at least 3301 s), [header()]
    runs exactly one exchange: the world afterwards is the world after that
    single exchange, plus one clock reading on success.  On success one
    request went out, the stored token is the returned one and the fetch
    time is the clock reading taken after the exchange; on failure the error
    is returned and the manager is unchanged. *)
Theorem header_stale_one_exchange (w : World) (s : InstallationToken) :
  fetch_time s + sec 3301 <= w_clock w (w_tick w) ->
  match get_installation_token (client s) (params s) (w_set_tick w (S (w_tick w))),
        header (w, s) with
  | (Ok raw, w1), (r, (w', s')) =>
      List.length (w_reqs w') = S (List.length (w_reqs w)) /\
      w' = w_set_tick w1 (S (w_tick w1)) /\
      token s' = raw_token raw /\ fetch_time s' = w_clock w1 (w_tick w1)
  | (Err e, w1), (r, (w', s')) =>
      r = Err e /\ (List.length (w_reqs w') <= S (List.length (w_reqs w)))%nat /\
      w' = w1 /\ s' = s
  end.
Proof.
  intros Hst.
  rewrite header_eq, refresh_eq. cbn zeta.
  assert (Hle : (fetch_time s <=? w_clock w (w_tick w)) = true) by (apply Z.leb_le; unfold sec, nanos_per_sec in *; lia).
  assert (Hgt : (as_secs (w_clock w (w_tick w) - fetch_time s) >? REFRESH_AFTER_SECS) = true)
    by (apply Z.gtb_lt, stale_as_secs; lia).
  rewrite Hle, Hgt.
  pose proof (get_installation_token_reqs (client s) (params s) (w_set_tick w (S (w_tick w)))) as Hr.
  pose proof (get_installation_token_tick (client s) (params s) (w_set_tick w (S (w_tick w)))) as Ht.
  destruct (get_installation_token _ _ _) as [[raw|e] w1]; cbn in Hr, Ht |- *.
  - destruct Hr as (Hc & _ & Hq). destruct (Hq raw eq_refl) as [q ->]. cbn.
    repeat split; auto.
  - destruct Hr as (Hc & Hq & _). repeat split; auto.
    destruct Hq as [-> | [q ->]]; cbn; lia.
Qed.

(** C1 (counterexample).  An elapsed time of 3300.5 seconds is more than
    55 minutes, yet [header()] sends no request and keeps the old token:
    the check looks at whole seconds only ([Duration::as_secs]). *)
Lemma header_3300_5_secs_no_exchange :
  let w := sample_world [sec 1000 + 3300500000000] "T2" in
  let s := sample_manager "T1" (sec 1000) in
  sec 3300 < w_clock w (w_tick w) - fetch_time s /\
  match header (w, s) with
  | (r, (w', s')) => w_reqs w' = [] /\ s' = s /\ r = Ok [("authorization", "token T1")]
  end.
Proof. cbv zeta. split; [unfold Z.lt; vm_compute; reflexivity | vm_compute; repeat split]. Qed.

(** C2.  When at most 55 minutes (3300 s) have passed since the last fetch,
    [header()] reads the clock once and does nothing else to the world: no
    signing, no request; the manager is unchanged and the result is the
    header built from the stored token. *)
Theorem header_fresh_no_exchange (w : World) (s : InstallationToken) :
  fetch_time s <= w_clock w (w_tick w) ->
  w_clock w (w_tick w) - fetch_time s <= sec 3300 ->
  match header (w, s) with
  | (r, (w', s')) =>
      r = build_header s /\ s' = s /\
      w_reqs w' = w_reqs w /\ w_signs w' = w_signs w /\
      w' = w_set_tick w (S (w_tick w))
  end.
Proof.
  intros H0 H1.
  rewrite header_eq, refresh_eq. cbn zeta.
  assert (Hle : (fetch_time s <=? w_clock w (w_tick w)) = true) by (apply Z.leb_le; lia).
  assert (Hgt : (as_secs (w_clock w (w_tick w) - fetch_time s) >? REFRESH_AFTER_SECS) = false).
  { rewrite Z.gtb_ltb; apply Z.ltb_ge, fresh_as_secs; lia. }
  rewrite Hle, Hgt. cbn. repeat split.
Qed.

(** C3.  A failed [refresh] leaves the manager exactly as it was, and the
    error it returns is either the clock error of the staleness check or
    the error of the exchange it ran. *)
Theorem refresh_failure_keeps_state (w : World) (s : InstallationToken)
    (e : AuthError) (w' : World) (s' : InstallationToken) :
  refresh (w, s) = (Err e, (w', s')) ->
  s' = s /\
  ((w_clock w (w_tick w) < fetch_time s /\ e = TimeError) \/
   (fetch_time s <= w_clock w (w_tick w) /\
    REFRESH_AFTER_SECS < as_secs (w_clock w (w_tick w) - fetch_time s) /\
    get_installation_token (client s) (params s) (w_set_tick w (S (w_tick w)))
    = (Err e, w'))).
Proof.
  rewrite refresh_eq. cbn zeta.
  destruct (fetch_time s <=? w_clock w (w_tick w)) eqn:Hle.
  - apply Z.leb_le in Hle.
    destruct (as_secs (w_clock w (w_tick w) - fetch_time s) >? REFRESH_AFTER_SECS) eqn:Hgt;
      [|discriminate].
    apply Z.gtb_lt in Hgt.
    destruct (get_installation_token _ _ _) as [[raw|e1] w1] eqn:Hg; [discriminate|].
    intros H; inversion H; subst. split; [reflexivity|]. right. auto.
  - apply Z.leb_gt in Hle. intros H; inversion H; subst. auto.
Qed.

(** C4.  The claims of the identity assertion: issuer is the application
    id, issued-at is the clock reading in whole seconds since the epoch and
    expiry is issued-at plus 60; a clock before the epoch fails with
    [TimeError]. *)
Theorem JwtClaims_new_spec (p : GithubAuthParams) (w : World) :
  system_time_in_range (w_clock w (w_tick w)) ->
  (UNIX_EPOCH <= w_clock w (w_tick w) ->
   exists c, fst (JwtClaims_new p w) = Ok c /\
             iss c = app_id p /\ iat c = as_secs (w_clock w (w_tick w)) /\
             exp c = iat c + 60) /\
  (w_clock w (w_tick w) < UNIX_EPOCH -> fst (JwtClaims_new p w) = Err TimeError).
Proof.
  unfold system_time_in_range, JwtClaims_new, bind, now, raise, ret,
    duration_since, UNIX_EPOCH.
  cbn. set (t := w_clock w (w_tick w)). intros [Hlo Hhi].
  split.
  - intros H0. replace (0 <=? t) with true by (symmetry; apply Z.leb_le; lia).
    eexists; split; [reflexivity|]. cbn. rewrite Z.sub_0_r. repeat split.
    unfold u64_add, u64_modulus, as_secs, nanos_per_sec in *.
    assert (0 <= t / 1000000000) by (apply Z.div_pos; lia).
    assert (t / 1000000000 < 2 ^ 63) by (apply Z.div_lt_upper_bound; lia).
    apply Z.mod_small.
    replace (2 ^ 64) with (2 * 2 ^ 63) by reflexivity. lia.
  - intros H0. replace (0 <=? t) with false by (symmetry; apply Z.leb_gt; lia).
    reflexivity.
Qed.

(** C5.  [InstallationToken::new] builds the client, then runs one full
    exchange, then reads the clock; a failure of the client build or of the
    exchange is returned as it is and no manager is produced. *)
Theorem InstallationToken_new_spec (p : GithubAuthParams) (w : World) :
  match w_build_client w (user_agent p) with
  | Some e => InstallationToken_new p w = (Err (ReqwestErr e), w)
  | None =>
      let c := {| client_user_agent := user_agent p |} in
      match get_installation_token c p w with
      | (Err e, w1) => InstallationToken_new p w = (Err e, w1)
      | (Ok raw, w1) =>
          InstallationToken_new p w =
          (Ok {| client := c; token := raw_token raw;
                 fetch_time := w_clock w1 (w_tick w1); params := p |},
           w_set_tick w1 (S (w_tick w1)))
      end
  end.
Proof.
  unfold InstallationToken_new, bind, build_client, ret, now.
  destruct (w_build_client w (user_agent p)) as [e|]; [reflexivity|].
  cbv zeta.
  destruct (get_installation_token _ p w) as [[raw|e] w1]; reflexivity.
Qed.

(** C6.  A successful [header()] holds an [Authorization] entry whose value
    is ["token "] followed by the token stored after the call. *)
Theorem header_authorization (w : World) (s : InstallationToken)
    (h : HeaderMap) (w' : World) (s' : InstallationToken) :
  header (w, s) = (Ok h, (w', s')) ->
  header_map_get "Authorization" h = Some ("token " ++ token s').
Proof.
  rewrite header_eq.
  destruct (refresh (w, s)) as [[[]|e] [w1 s1]]; [|discriminate].
  unfold build_header, parse_header_value.
  destruct (header_value_valid ("token " ++ token s1)); [|discriminate].
  intros H; inversion H; subst.
  unfold header_map_get, header_map_insert, header_map_new. cbn.
  reflexivity.
Qed.

(** C7 (code bug).  Every exchange asks the signer for RS256 but hands it
    [EncodingKey::from_secret(&params.private_key)], an HMAC-family key.
    With [jsonwebtoken::encode] as the library implements it, the family
    check rejects every such call with [InvalidAlgorithm]: the assertion is
    never signed, the error surfaces as [JwtError], and no request is sent. *)
Theorem get_installation_token_rs256_with_hmac_key
    (c : Client) (p : GithubAuthParams) (w : World)
    (sign_prim : JwtHeader -> JwtClaims -> EncodingKey -> Result string JwtErrorKind) :
  w_sign w = jsonwebtoken_encode sign_prim ->
  match get_installation_token c p w with
  | (r, w') =>
      (r = Err TimeError \/ r = Err (JwtError InvalidAlgorithm)) /\
      w_reqs w' = w_reqs w /\
      (w_signs w' = w_signs w \/
       exists cl, w_signs w' =
         {| sc_header := {| alg := RS256 |}; sc_claims := cl;
            sc_key := from_secret (private_key p) |} :: w_signs w)
  end.
Proof.
  intros Hs.
  unfold get_installation_token, JwtClaims_new, bind, now, raise, ret,
    duration_since, encode.
  cbn -[access_tokens_url u64_add as_secs header_value_valid].
  destruct (UNIX_EPOCH <=? w_clock w (w_tick w)).
  - cbn -[access_tokens_url u64_add as_secs header_value_valid].
    rewrite Hs. cbn -[access_tokens_url u64_add as_secs header_value_valid].
    split; [right; reflexivity|]. split; [reflexivity|]. right. eexists. reflexivity.
  - cbn. split; [left; reflexivity|]. auto.
Qed.

(** The parameters and the client of a manager are never written. *)
Lemma refresh_frame (st : Sys) :
  params (snd (snd (refresh st))) = params (snd st) /\
  client (snd (snd (refresh st))) = client (snd st).
Proof.
  destruct st as [w s]. rewrite refresh_eq. cbn zeta.
  destruct (_ <=? _); [|auto].
  destruct (_ >? _); [|auto].
  destruct (get_installation_token _ _ _) as [[raw|e] w1]; auto.
Qed.

Lemma header_frame (st : Sys) :
  params (snd (snd (header st))) = params (snd st) /\
  client (snd (snd (header st))) = client (snd st).
Proof.
  rewrite header_eq. pose proof (refresh_frame st) as Hf.
  destruct (refresh st) as [[[]|e] [w' s']]; exact Hf.
Qed.

(** C8.  [refresh()] and any sequence of [header()] calls, failed ones
    included, leave the [GithubAuthParams] of the manager (and its client)
    as they were. *)
Theorem params_never_mutated :
  (forall st : Sys,
     params (snd (snd (refresh st))) = params (snd st) /\
     client (snd (snd (refresh st))) = client (snd st)) /\
  (forall (n : nat) (st : Sys),
     params (snd (snd (header_calls n st))) = params (snd st) /\
     client (snd (snd (header_calls n st))) = client (snd st)).
Proof.
  split; [exact refresh_frame|].
  induction n as [|n IH]; intros st; [auto|].
  cbn. pose proof (header_frame st) as [Hp Hc].
  destruct (header st) as [r st1].
  pose proof (IH st1) as [Hp' Hc'].
  destruct (header_calls n st1) as [rs st2].
  cbn in *. split; congruence.
Qed.

(** C9.  When the refresh inside [header()] succeeds but the new token does
    not make a valid header value, [header()] fails with
    [InvalidHeaderValue] and the manager keeps the refreshed token and
    fetch time. *)
Theorem header_error_after_refresh (w : World) (s : InstallationToken)
    (w' : World) (s' : InstallationToken) :
  refresh (w, s) = (Ok tt, (w', s')) ->
  header_value_valid ("token " ++ token s') = false ->
  header (w, s) = (Err InvalidHeaderValue, (w', s')).
Proof.
  intros Hr Hv. rewrite header_eq, Hr.
  unfold build_header, parse_header_value. rewrite Hv. reflexivity.
Qed.

(** C10.  Whether [refresh] exchanges is decided on whole seconds: it does
    anything beyond its one clock reading exactly when the truncated
    elapsed second count is at least 3301; 3300.5 s does not trigger it. *)
Theorem refresh_trigger_whole_seconds (w : World) (s : InstallationToken) :
  fetch_time s <= w_clock w (w_tick w) ->
  (refresh (w, s) <> (Ok tt, (w_set_tick w (S (w_tick w)), s)) <->
   3301 <= (w_clock w (w_tick w) - fetch_time s) / nanos_per_sec) /\
  (w_clock w (w_tick w) - fetch_time s = 3300500000000 ->
   refresh (w, s) = (Ok tt, (w_set_tick w (S (w_tick w)), s))).
Proof.
  intros Hle. rewrite refresh_eq. cbn zeta.
  replace (fetch_time s <=? w_clock w (w_tick w)) with true
    by (symmetry; apply Z.leb_le; exact Hle).
  destruct (as_secs (w_clock w (w_tick w) - fetch_time s) >? REFRESH_AFTER_SECS) eqn:Hgt.
  - apply Z.gtb_lt in Hgt. unfold as_secs, REFRESH_AFTER_SECS in Hgt.
    split.
    + split; [intros _; lia|]. intros _.
      pose proof (get_installation_token_tick (client s) (params s)
                    (w_set_tick w (S (w_tick w)))) as Ht.
      destruct (get_installation_token _ _ _) as [[raw|e] w1]; cbn in Ht;
        [|discriminate].
      intros H. apply (f_equal (fun x => w_tick (fst (snd x)))) in H.
      cbn in H. lia.
    + intros He. rewrite He in Hgt. vm_compute in Hgt. discriminate.
  - rewrite Z.gtb_ltb in Hgt. apply Z.ltb_ge in Hgt.
    unfold as_secs, REFRESH_AFTER_SECS in Hgt.
    split; [|reflexivity].
    split; [intros H; exfalso; apply H; reflexivity | lia].
Qed.

(** ** Witnesses *)

Lemma header_stale_one_exchange_witness :
  let w := sample_world [sec 4360; sec 4360; sec 4361] "T2" in
  let s := sample_manager "T1" (sec 1000) in
  fetch_time s + sec 3301 <= w_clock w (w_tick w) /\
  match get_installation_token (client s) (params s) (w_set_tick w (S (w_tick w))),
        header (w, s) with
  | (Ok raw, w1), (r, (w', s')) =>
      List.length (w_reqs w') = S (List.length (w_reqs w)) /\
      w' = w_set_tick w1 (S (w_tick w1)) /\
      token s' = raw_token raw /\ fetch_time s' = w_clock w1 (w_tick w1)
  | (Err e, w1), (r, (w', s')) =>
      r = Err e /\ (List.length (w_reqs w') <= S (List.length (w_reqs w)))%nat /\
      w' = w1 /\ s' = s
  end.
Proof.
  cbv zeta.
  assert (H : fetch_time (sample_manager "T1" (sec 1000)) + sec 3301
              <= w_clock (sample_world [sec 4360; sec 4360; sec 4361] "T2") 0)
    by (vm_compute; discriminate).
  exact (conj H (header_stale_one_exchange _ _ H)).
Defined.

Lemma header_fresh_no_exchange_witness :
  let w := sample_world [sec 4300] "T2" in
  let s := sample_manager "T1" (sec 1000) in
  fetch_time s <= w_clock w (w_tick w) /\
  w_clock w (w_tick w) - fetch_time s <= sec 3300 /\
  match header (w, s) with
  | (r, (w', s')) =>
      r = build_header s /\ s' = s /\
      w_reqs w' = w_reqs w /\ w_signs w' = w_signs w /\
      w' = w_set_tick w (S (w_tick w))
  end.
Proof.
  cbv zeta.
  assert (H0 : fetch_time (sample_manager "T1" (sec 1000))
               <= w_clock (sample_world [sec 4300] "T2") 0)
    by (vm_compute; discriminate).
  assert (H1 : w_clock (sample_world [sec 4300] "T2") 0
               - fetch_time (sample_manager "T1" (sec 1000)) <= sec 3300)
    by (vm_compute; discriminate).
  exact (conj H0 (conj H1 (header_fresh_no_exchange _ _ H0 H1))).
Defined.

Lemma refresh_failure_keeps_state_witness :
  let w := offline_world [sec 4360; sec 4360] in
  let s := sample_manager "T1" (sec 1000) in
  refresh (w, s) = (Err (ReqwestErr TransportError), (fst (snd (refresh (w, s))), s)) /\
  s = s /\
  ((w_clock w (w_tick w) < fetch_time s /\ ReqwestErr TransportError = TimeError) \/
   (fetch_time s <= w_clock w (w_tick w) /\
    REFRESH_AFTER_SECS < as_secs (w_clock w (w_tick w) - fetch_time s) /\
    get_installation_token (client s) (params s) (w_set_tick w (S (w_tick w)))
    = (Err (ReqwestErr TransportError), fst (snd (refresh (w, s)))))).
Proof.
  cbv zeta.
  assert (H : refresh (offline_world [sec 4360; sec 4360], sample_manager "T1" (sec 1000))
              = (Err (ReqwestErr TransportError),
                 (fst (snd (refresh (offline_world [sec 4360; sec 4360],
                                     sample_manager "T1" (sec 1000)))),
                  sample_manager "T1" (sec 1000))))
    by (vm_compute; reflexivity).
  exact (conj H (refresh_failure_keeps_state _ _ _ _ _ H)).
Defined.

Lemma JwtClaims_new_spec_witness :
  let w := sample_world [sec 1468275190] "T2" in
  system_time_in_range (w_clock w (w_tick w)) /\
  (UNIX_EPOCH <= w_clock w (w_tick w) ->
   exists c, fst (JwtClaims_new sample_params w) = Ok c /\
             iss c = app_id sample_params /\ iat c = as_secs (w_clock w (w_tick w)) /\
             exp c = iat c + 60) /\
  (w_clock w (w_tick w) < UNIX_EPOCH ->
   fst (JwtClaims_new sample_params w) = Err TimeError).
Proof.
  cbv zeta.
  assert (H : system_time_in_range (w_clock (sample_world [sec 1468275190] "T2") 0)).
  { unfold system_time_in_range. vm_compute. split; [discriminate | reflexivity]. }
  exact (conj H (JwtClaims_new_spec _ _ H)).
Defined.

Lemma header_authorization_witness :
  header (sample_world [sec 1000] "T2", sample_manager "T1" (sec 1000))
  = (Ok [("authorization", "token T1")],
     (w_set_tick (sample_world [sec 1000] "T2") 1, sample_manager "T1" (sec 1000))) /\
  header_map_get "Authorization" [("authorization", "token T1")]
  = Some ("token " ++ token (sample_manager "T1" (sec 1000))).
Proof.
  assert (H : header (sample_world [sec 1000] "T2", sample_manager "T1" (sec 1000))
              = (Ok [("authorization", "token T1")],
                 (w_set_tick (sample_world [sec 1000] "T2") 1,
                  sample_manager "T1" (sec 1000)))) by (vm_compute; reflexivity).
  exact (conj H (header_authorization _ _ _ _ _ H)).
Defined.

Lemma get_installation_token_rs256_with_hmac_key_witness :
  let w := jsonwebtoken_world [sec 4360] in
  w_sign w = jsonwebtoken_encode (fun _ _ _ => Ok "sig") /\
  match get_installation_token {| client_user_agent := "my-cool-user-agent" |}
          sample_params w with
  | (r, w') =>
      (r = Err TimeError \/ r = Err (JwtError InvalidAlgorithm)) /\
      w_reqs w' = w_reqs w /\
      (w_signs w' = w_signs w \/
       exists cl, w_signs w' =
         {| sc_header := {| alg := RS256 |}; sc_claims := cl;
            sc_key := from_secret (private_key sample_params) |} :: w_signs w)
  end.
Proof.
  cbv zeta.
  assert (H : w_sign (jsonwebtoken_world [sec 4360])
              = jsonwebtoken_encode (fun _ _ _ => Ok "sig")) by reflexivity.
  exact (conj H (get_installation_token_rs256_with_hmac_key
    {| client_user_agent := "my-cool-user-agent" |} sample_params _ _ H)).
Defined.

Lemma header_error_after_refresh_witness :
  let w := sample_world [sec 4360; sec 4360; sec 4361] token_with_newline in
  let s := sample_manager "T1" (sec 1000) in
  let st' := snd (refresh (w, s)) in
  refresh (w, s) = (Ok tt, (fst st', snd st')) /\
  header_value_valid ("token " ++ token (snd st')) = false /\
  header (w, s) = (Err InvalidHeaderValue, (fst st', snd st')) /\
  token (snd st') <> token s.
Proof.
  cbv zeta.
  set (w := sample_world [sec 4360; sec 4360; sec 4361] token_with_newline).
  set (s := sample_manager "T1" (sec 1000)).
  assert (H1 : refresh (w, s) = (Ok tt, (fst (snd (refresh (w, s))), snd (snd (refresh (w, s))))))
    by (vm_compute; reflexivity).
  assert (H2 : header_value_valid ("token " ++ token (snd (snd (refresh (w, s))))) = false)
    by (vm_compute; reflexivity).
  split; [exact H1|]. split; [exact H2|]. split.
  - exact (header_error_after_refresh _ _ _ _ H1 H2).
  - vm_compute. discriminate.
Defined.

Lemma refresh_trigger_whole_seconds_witness :
  let w := sample_world [sec 1000 + 3300500000000] "T2" in
  let s := sample_manager "T1" (sec 1000) in
  fetch_time s <= w_clock w (w_tick w) /\
  (refresh (w, s) <> (Ok tt, (w_set_tick w (S (w_tick w)), s)) <->
   3301 <= (w_clock w (w_tick w) - fetch_time s) / nanos_per_sec) /\
  (w_clock w (w_tick w) - fetch_time s = 3300500000000 ->
   refresh (w, s) = (Ok tt, (w_set_tick w (S (w_tick w)), s))).
Proof.
  cbv zeta.
  assert (H : fetch_time (sample_manager "T1" (sec 1000))
              <= w_clock (sample_world [sec 1000 + 3300500000000] "T2") 0)
    by (vm_compute; discriminate).
  exact (conj H (refresh_trigger_whole_seconds _ _ H)).
Defined.

(** ** Further properties of the code *)

Lemma list_ascii_of_string_app (a b : string) :
  list_ascii_of_string (a ++ b) = app (list_ascii_of_string a) (list_ascii_of_string b).
Proof. induction a as [|c a IH]; cbn; [reflexivity|]. now rewrite IH. Qed.

Lemma header_value_valid_app (a b : string) :
  header_value_valid (a ++ b) = header_value_valid a && header_value_valid b.
Proof. unfold header_value_valid. now rewrite list_ascii_of_string_app, forallb_app. Qed.

Lemma dec_digits_value (fuel : nat) : forall n a acc,
  0 <= n < 10 ^ Z.of_nat fuel ->
  exists k, 0 <= k /\ dec_value_acc a (dec_digits fuel n acc) = dec_value_acc (a * 10 ^ k + n) acc.
Proof.
  induction fuel as [|f IH]; intros n a acc Hn.
  - cbn in Hn. exists 0. cbn. split; [lia|]. f_equal; try lia.
  - rewrite Nat2Z.inj_succ, Z.pow_succ_r in Hn by lia.
    assert (Hm : 0 <= n mod 10 < 10) by (apply Z.mod_pos_bound; lia).
    assert (Hd : Z.of_nat (nat_of_ascii (ascii_of_nat (48 + Z.to_nat (n mod 10)))) - 48
                 = n mod 10).
    { rewrite nat_ascii_embedding by lia. lia. }
    cbn [dec_digits].
    destruct (n <? 10) eqn:Hlt.
    + apply Z.ltb_lt in Hlt. exists 1. split; [lia|]. cbn [dec_value_acc].
      rewrite Hd, Z.mod_small by lia. f_equal; try lia.
    + apply Z.ltb_ge in Hlt.
      assert (Hq : 0 <= n / 10 < 10 ^ Z.of_nat f).
      { split; [apply Z.div_pos; lia|]. apply Z.div_lt_upper_bound; lia. }
      destruct (IH (n / 10) a (String (ascii_of_nat (48 + Z.to_nat (n mod 10))) acc) Hq)
        as [k [Hk ->]].
      exists (k + 1). split; [lia|]. cbn [dec_value_acc]. rewrite Hd.
      f_equal. rewrite Z.pow_add_r by lia.
      pose proof (Z.div_mod n 10). lia.
Qed.

(** X1.  The installation id put into the endpoint URL reads back as the
    same number: [format!] renders every [u64] in decimal exactly. *)
Theorem u64_to_string_roundtrip (n : Z) :
  0 <= n < u64_modulus -> dec_value (u64_to_string n) = n.
Proof.
  intros Hn. unfold dec_value, u64_to_string.
  destruct (dec_digits_value 20 n 0 "") as [k [_ ->]].
  - unfold u64_modulus in Hn. split; [lia|].
    apply (Z.lt_le_trans _ (2 ^ 64)); [lia|]. vm_compute. discriminate.
  - cbn. lia.
Qed.

(** X2.  [HeaderMap::insert] then [HeaderMap::get]: the name just
    inserted (in any letter case) yields the new value, and every other
    name keeps the value it had. *)
Theorem header_map_insert_get (n v n' : string) (m : HeaderMap) :
  header_map_get n' (header_map_insert n v m) =
  if String.eqb (header_name n') (header_name n) then Some v
  else header_map_get n' m.
Proof.
  unfold header_map_get, header_map_insert. cbn.
  destruct (String.eqb (header_name n) (header_name n')) eqn:E;
    destruct (String.eqb (header_name n') (header_name n)) eqn:E';
    try (rewrite String.eqb_sym in E; congruence); [reflexivity|].
  induction m as [|[a b] m IH]; cbn; [reflexivity|].
  destruct (String.eqb a (header_name n)) eqn:Ea; cbn.
  - apply String.eqb_eq in Ea. subst a. rewrite E. exact IH.
  - destruct (String.eqb a (header_name n')); [reflexivity | exact IH].
Qed.


Lemma get_installation_token_eq (c : Client) (p : GithubAuthParams) (w : World) (jwt : string) :
  UNIX_EPOCH <= w_clock w (w_tick w) ->
  w_sign w {| alg := RS256 |} (claims_at p (w_clock w (w_tick w)))
    (from_secret (private_key p)) = Ok jwt ->
  header_value_valid jwt = true ->
  get_installation_token c p w =
  let w1 := w_log_sign (w_set_tick w (S (w_tick w)))
              {| sc_header := {| alg := RS256 |};
                 sc_claims := claims_at p (w_clock w (w_tick w));
                 sc_key := from_secret (private_key p) |} in
  let q := access_token_request c p jwt in
  (match w_send w (List.length (w_reqs w)) q with
   | Ok resp =>
       match error_for_status resp with
       | Ok resp' => map_err ReqwestErr (w_json w (resp_body resp'))
       | Err e => Err e
       end
   | Err e => Err (ReqwestErr e)
   end, w_log_req w1 q).
Proof.
  intros Ht Hs Hv.
  unfold get_installation_token, JwtClaims_new, bind, now, raise, ret,
    duration_since, encode, send, json.
  change (set_alg default_jwt_header RS256) with {| alg := RS256 |}.
  cbn -[access_tokens_url u64_add as_secs header_value_valid String.append].
  replace (UNIX_EPOCH <=? w_clock w (w_tick w)) with true by (symmetry; apply Z.leb_le; exact Ht).
  cbn -[access_tokens_url u64_add as_secs header_value_valid String.append].
  unfold UNIX_EPOCH. rewrite Z.sub_0_r.
  unfold claims_at in Hs. rewrite Hs.
  cbn -[access_tokens_url u64_add as_secs header_value_valid String.append].
  assert (Hb : header_value_valid ("Bearer " ++ jwt) = true)
    by (rewrite header_value_valid_app, Hv; reflexivity).
  assert (Ha : header_value_valid MACHINE_MAN_PREVIEW = true) by reflexivity.
  rewrite Hb.
  cbn -[access_tokens_url u64_add as_secs header_value_valid String.append MACHINE_MAN_PREVIEW].
  rewrite Ha.
  cbn -[access_tokens_url u64_add as_secs header_value_valid String.append MACHINE_MAN_PREVIEW].
  destruct (w_send w _ _) as [resp|e]; cbn [map_err]; [|reflexivity].
  destruct (error_for_status resp); reflexivity.
Qed.

(** X4.  With the clock at or after the epoch and the signer returning a
    valid header value [jwt], [get_installation_token] first asks the
    signer for RS256 over the claims of that clock reading and then puts
    exactly one request on the wire: a POST to the installation's
    [access_tokens] URL carrying the client's user agent,
    [Authorization: Bearer <jwt>] and the machine-man preview [Accept]. *)
Theorem get_installation_token_sends_request
    (c : Client) (p : GithubAuthParams) (w : World) (jwt : string) :
  UNIX_EPOCH <= w_clock w (w_tick w) ->
  w_sign w {| alg := RS256 |} (claims_at p (w_clock w (w_tick w)))
    (from_secret (private_key p)) = Ok jwt ->
  header_value_valid jwt = true ->
  w_reqs (snd (get_installation_token c p w)) = access_token_request c p jwt :: w_reqs w /\
  w_signs (snd (get_installation_token c p w)) =
    {| sc_header := {| alg := RS256 |};
       sc_claims := claims_at p (w_clock w (w_tick w));
       sc_key := from_secret (private_key p) |} :: w_signs w.
Proof.
  intros Ht Hs Hv. rewrite (get_installation_token_eq c p w jwt Ht Hs Hv).
  split; reflexivity.
Qed.

(** X5.  How the answer to that request is used: a 4xx or 5xx status
    fails with [StatusError] carrying the status, without reading the body;
    any other status (also 1xx or 3xx) hands the body to the JSON decoder,
    whose result is returned. *)
Theorem get_installation_token_status
    (c : Client) (p : GithubAuthParams) (w : World) (jwt : string) (resp : Response) :
  UNIX_EPOCH <= w_clock w (w_tick w) ->
  w_sign w {| alg := RS256 |} (claims_at p (w_clock w (w_tick w)))
    (from_secret (private_key p)) = Ok jwt ->
  header_value_valid jwt = true ->
  w_send w (List.length (w_reqs w)) (access_token_request c p jwt) = Ok resp ->
  fst (get_installation_token c p w) =
  if (400 <=? resp_status resp) && (resp_status resp <? 600)
  then Err (ReqwestErr (StatusError (resp_status resp)))
  else map_err ReqwestErr (w_json w (resp_body resp)).
Proof.
  intros Ht Hs Hv Hr. rewrite (get_installation_token_eq c p w jwt Ht Hs Hv).
  cbn zeta. cbn [fst]. rewrite Hr. unfold error_for_status.
  destruct (_ && _); reflexivity.
Qed.

(** X6.  With the clock before the epoch, [get_installation_token] fails
    with [TimeError] after its one clock reading: nothing is signed and
    nothing is sent. *)
Theorem get_installation_token_clock_before_epoch
    (c : Client) (p : GithubAuthParams) (w : World) :
  w_clock w (w_tick w) < UNIX_EPOCH ->
  get_installation_token c p w = (Err TimeError, w_set_tick w (S (w_tick w))).
Proof.
  intros Ht.
  unfold get_installation_token, JwtClaims_new, bind, now, raise, duration_since.
  cbn -[access_tokens_url u64_add as_secs header_value_valid String.append].
  replace (UNIX_EPOCH <=? w_clock w (w_tick w)) with false
    by (symmetry; apply Z.leb_gt; exact Ht).
  reflexivity.
Qed.

(** X7.  When the signer fails, or returns a string that is not a valid
    header value (so the bearer header cannot be built), the exchange
    fails with [JwtError] or [BuilderError] respectively and no request is
    sent. *)
Theorem get_installation_token_unsent
    (c : Client) (p : GithubAuthParams) (w : World) (sr : Result string JwtErrorKind) :
  UNIX_EPOCH <= w_clock w (w_tick w) ->
  w_sign w {| alg := RS256 |} (claims_at p (w_clock w (w_tick w)))
    (from_secret (private_key p)) = sr ->
  match sr with
  | Ok jwt => header_value_valid jwt = false ->
              fst (get_installation_token c p w) = Err (ReqwestErr BuilderError)
  | Err e => fst (get_installation_token c p w) = Err (JwtError e)
  end /\
  (match sr with Ok jwt => header_value_valid jwt = false | Err _ => True end ->
   w_reqs (snd (get_installation_token c p w)) = w_reqs w).
Proof.
  intros Ht Hs.
  unfold get_installation_token, JwtClaims_new, bind, now, raise, ret,
    duration_since, encode, send, json.
  change (set_alg default_jwt_header RS256) with {| alg := RS256 |}.
  cbn -[access_tokens_url u64_add as_secs header_value_valid String.append].
  replace (UNIX_EPOCH <=? w_clock w (w_tick w)) with true by (symmetry; apply Z.leb_le; exact Ht).
  cbn -[access_tokens_url u64_add as_secs header_value_valid String.append].
  unfold UNIX_EPOCH. rewrite Z.sub_0_r.
  unfold claims_at in Hs. rewrite Hs.
  destruct sr as [jwt|e]; cbn -[access_tokens_url u64_add as_secs header_value_valid String.append];
    [|split; reflexivity].
  rewrite header_value_valid_app.
  replace (header_value_valid "Bearer ") with true by reflexivity. cbn [andb].
  split; intros Hv; rewrite Hv; reflexivity.
Qed.

(** X8.  If the clock reads earlier than the stored fetch time (the clock
    went back), [header()] fails with [TimeError]; it has only read the
    clock and the manager is unchanged. *)
Theorem header_clock_went_back (w : World) (s : InstallationToken) :
  w_clock w (w_tick w) < fetch_time s ->
  header (w, s) = (Err TimeError, (w_set_tick w (S (w_tick w)), s)).
Proof.
  intros Ht. rewrite header_eq, refresh_eq. cbn zeta.
  replace (fetch_time s <=? w_clock w (w_tick w)) with false
    by (symmetry; apply Z.leb_gt; exact Ht).
  reflexivity.
Qed.

Lemma header_in_window (w : World) (s : InstallationToken) :
  fetch_time s <= w_clock w (w_tick w) <= fetch_time s + sec 3300 ->
  header (w, s) = (build_header s, (w_set_tick w (S (w_tick w)), s)).
Proof.
  intros [H0 H1]. rewrite header_eq, refresh_eq. cbn zeta.
  replace (fetch_time s <=? w_clock w (w_tick w)) with true
    by (symmetry; apply Z.leb_le; exact H0).
  replace (as_secs (w_clock w (w_tick w) - fetch_time s) >? REFRESH_AFTER_SECS) with false.
  - reflexivity.
  - symmetry. rewrite Z.gtb_ltb. apply Z.ltb_ge, fresh_as_secs; lia.
Qed.

(** X9.  While every clock reading stays within 3300 s after the stored
    fetch time, any number of [header()] calls send nothing, sign nothing,
    leave the manager as it is and all return the header of the stored
    token. *)
Theorem header_calls_in_window (n : nat) : forall (w : World) (s : InstallationToken),
  (forall k, (w_tick w <= k < w_tick w + n)%nat ->
     fetch_time s <= w_clock w k <= fetch_time s + sec 3300) ->
  header_calls n (w, s) =
  (List.repeat (build_header s) n, (w_set_tick w (w_tick w + n), s)).
Proof.
  induction n as [|n IH]; intros w s Hk.
  - cbn. rewrite Nat.add_0_r. destruct w; reflexivity.
  - cbn [header_calls]. rewrite header_in_window by (apply Hk; lia).
    rewrite IH.
    + cbn. replace (S (w_tick w + n))%nat with (w_tick w + S n)%nat by lia. reflexivity.
    + cbn. intros k Hk'. apply Hk. lia.
Qed.

Lemma refresh_reqs (st : Sys) :
  (List.length (w_reqs (fst (snd (refresh st)))) <= S (List.length (w_reqs (fst st))))%nat.
Proof.
  destruct st as [w s]. rewrite refresh_eq. cbn zeta.
  destruct (_ <=? _); [|cbn; lia].
  destruct (_ >? _); [|cbn; lia].
  pose proof (get_installation_token_reqs (client s) (params s) (w_set_tick w (S (w_tick w)))) as H.
  destruct (get_installation_token _ _ _) as [r w1].
  destruct H as (_ & [Hq | [q Hq]] & _); destruct r; cbn; rewrite Hq; cbn; lia.
Qed.

Lemma header_reqs (st : Sys) :
  (List.length (w_reqs (fst (snd (header st)))) <= S (List.length (w_reqs (fst st))))%nat.
Proof.
  rewrite header_eq. pose proof (refresh_reqs st) as H.
  destruct (refresh st) as [[[]|e] [w' s']]; exact H.
Qed.

(** X10.  A caller making [n] [header()] calls puts at most [n] requests on
    the wire, whatever the clock, the server and the failures. *)
Theorem header_calls_reqs_bound (n : nat) : forall st : Sys,
  (List.length (w_reqs (fst (snd (header_calls n st)))) <= List.length (w_reqs (fst st)) + n)%nat.
Proof.
  induction n as [|n IH]; intros st; [cbn; lia|].
  cbn [header_calls]. pose proof (header_reqs st) as H1.
  destruct (header st) as [r st1]. pose proof (IH st1) as H2.
  destruct (header_calls n st1) as [rs st2]. cbn in *. lia.
Qed.

(** X11.  [InstallationToken::new] puts at most one request on the wire,
    and exactly one when it returns a manager. *)
Theorem InstallationToken_new_reqs (p : GithubAuthParams) (w : World) :
  (List.length (w_reqs (snd (InstallationToken_new p w))) <= S (List.length (w_reqs w)))%nat /\
  (forall m, fst (InstallationToken_new p w) = Ok m ->
     List.length (w_reqs (snd (InstallationToken_new p w))) = S (List.length (w_reqs w))).
Proof.
  unfold InstallationToken_new, bind, build_client, ret, now.
  destruct (w_build_client w (user_agent p)); [cbn; split; [lia | discriminate]|].
  cbv zeta.
  pose proof (get_installation_token_reqs {| client_user_agent := user_agent p |} p w) as H.
  destruct (get_installation_token _ p w) as [[raw|e] w1].
  - destruct H as (_ & _ & Hq). destruct (Hq raw eq_refl) as [q Hq'].
    cbn. rewrite Hq'. cbn. split; [lia | reflexivity].
  - destruct H as (_ & [Hq | [q Hq]] & _); cbn; rewrite Hq; cbn; (split; [lia | discriminate]).
Qed.

(** ** Witnesses of the further properties *)

Lemma u64_to_string_roundtrip_witness :
  (0 <= 1216616 < u64_modulus) /\ dec_value (u64_to_string 1216616) = 1216616.
Proof.
  assert (H : 0 <= 1216616 < u64_modulus) by (unfold u64_modulus; lia).
  exact (conj H (u64_to_string_roundtrip _ H)).
Defined.

Lemma get_installation_token_sends_request_witness :
  let w := sample_world [sec 4360] "T2" in
  let c := {| client_user_agent := "my-cool-user-agent" |} in
  UNIX_EPOCH <= w_clock w (w_tick w) /\
  w_sign w {| alg := RS256 |} (claims_at sample_params (w_clock w (w_tick w)))
    (from_secret (private_key sample_params)) = Ok "jwt" /\
  header_value_valid "jwt" = true /\
  w_reqs (snd (get_installation_token c sample_params w))
    = access_token_request c sample_params "jwt" :: w_reqs w /\
  w_signs (snd (get_installation_token c sample_params w)) =
    {| sc_header := {| alg := RS256 |};
       sc_claims := claims_at sample_params (w_clock w (w_tick w));
       sc_key := from_secret (private_key sample_params) |} :: w_signs w.
Proof.
  cbv zeta.
  assert (H1 : UNIX_EPOCH <= w_clock (sample_world [sec 4360] "T2") 0)
    by (vm_compute; discriminate).
  assert (H2 : w_sign (sample_world [sec 4360] "T2") {| alg := RS256 |}
                 (claims_at sample_params (w_clock (sample_world [sec 4360] "T2") 0))
                 (from_secret (private_key sample_params)) = Ok "jwt") by reflexivity.
  assert (H3 : header_value_valid "jwt" = true) by reflexivity.
  exact (conj H1 (conj H2 (conj H3
    (get_installation_token_sends_request {| client_user_agent := "my-cool-user-agent" |}
       sample_params _ _ H1 H2 H3)))).
Defined.

Lemma get_installation_token_status_witness :
  let w := sample_world [sec 4360] "T2" in
  let c := {| client_user_agent := "my-cool-user-agent" |} in
  let resp := {| resp_status := 201; resp_body := "{}" |} in
  UNIX_EPOCH <= w_clock w (w_tick w) /\
  w_sign w {| alg := RS256 |} (claims_at sample_params (w_clock w (w_tick w)))
    (from_secret (private_key sample_params)) = Ok "jwt" /\
  header_value_valid "jwt" = true /\
  w_send w (List.length (w_reqs w)) (access_token_request c sample_params "jwt") = Ok resp /\
  fst (get_installation_token c sample_params w) =
  if (400 <=? resp_status resp) && (resp_status resp <? 600)
  then Err (ReqwestErr (StatusError (resp_status resp)))
  else map_err ReqwestErr (w_json w (resp_body resp)).
Proof.
  cbv zeta.
  assert (H1 : UNIX_EPOCH <= w_clock (sample_world [sec 4360] "T2") 0)
    by (vm_compute; discriminate).
  assert (H2 : w_sign (sample_world [sec 4360] "T2") {| alg := RS256 |}
                 (claims_at sample_params (w_clock (sample_world [sec 4360] "T2") 0))
                 (from_secret (private_key sample_params)) = Ok "jwt") by reflexivity.
  assert (H3 : header_value_valid "jwt" = true) by reflexivity.
  assert (H4 : w_send (sample_world [sec 4360] "T2") 0
                 (access_token_request {| client_user_agent := "my-cool-user-agent" |}
                    sample_params "jwt")
               = Ok {| resp_status := 201; resp_body := "{}" |}) by reflexivity.
  exact (conj H1 (conj H2 (conj H3 (conj H4
    (get_installation_token_status {| client_user_agent := "my-cool-user-agent" |}
       sample_params _ _ _ H1 H2 H3 H4))))).
Defined.

Lemma get_installation_token_clock_before_epoch_witness :
  let w := sample_world [-1] "T2" in
  w_clock w (w_tick w) < UNIX_EPOCH /\
  get_installation_token {| client_user_agent := "ua" |} sample_params w
  = (Err TimeError, w_set_tick w (S (w_tick w))).
Proof.
  cbv zeta.
  assert (H : w_clock (sample_world [-1] "T2") 0 < UNIX_EPOCH) by reflexivity.
  exact (conj H (get_installation_token_clock_before_epoch _ _ _ H)).
Defined.

Lemma get_installation_token_unsent_witness :
  let w := jsonwebtoken_world [sec 4360] in
  let c := {| client_user_agent := "ua" |} in
  UNIX_EPOCH <= w_clock w (w_tick w) /\
  w_sign w {| alg := RS256 |} (claims_at sample_params (w_clock w (w_tick w)))
    (from_secret (private_key sample_params)) = Err InvalidAlgorithm /\
  fst (get_installation_token c sample_params w) = Err (JwtError InvalidAlgorithm) /\
  (True -> w_reqs (snd (get_installation_token c sample_params w)) = w_reqs w).
Proof.
  cbv zeta.
  assert (H1 : UNIX_EPOCH <= w_clock (jsonwebtoken_world [sec 4360]) 0)
    by (vm_compute; discriminate).
  assert (H2 : w_sign (jsonwebtoken_world [sec 4360]) {| alg := RS256 |}
                 (claims_at sample_params (w_clock (jsonwebtoken_world [sec 4360]) 0))
                 (from_secret (private_key sample_params)) = Err InvalidAlgorithm)
    by reflexivity.
  exact (conj H1 (conj H2
    (get_installation_token_unsent {| client_user_agent := "ua" |} sample_params _ _ H1 H2))).
Defined.

Lemma header_clock_went_back_witness :
  let w := sample_world [sec 500] "T2" in
  let s := sample_manager "T1" (sec 1000) in
  w_clock w (w_tick w) < fetch_time s /\
  header (w, s) = (Err TimeError, (w_set_tick w (S (w_tick w)), s)).
Proof.
  cbv zeta.
  assert (H : w_clock (sample_world [sec 500] "T2") 0
              < fetch_time (sample_manager "T1" (sec 1000))) by reflexivity.
  exact (conj H (header_clock_went_back _ _ H)).
Defined.

Lemma header_calls_in_window_witness :
  let w := sample_world [sec 1000; sec 2000; sec 4300] "T2" in
  let s := sample_manager "T1" (sec 1000) in
  (forall k, (w_tick w <= k < w_tick w + 3)%nat ->
     fetch_time s <= w_clock w k <= fetch_time s + sec 3300) /\
  header_calls 3 (w, s) =
  (List.repeat (build_header s) 3, (w_set_tick w (w_tick w + 3), s)).
Proof.
  cbv zeta.
  assert (H : forall k, (w_tick (sample_world [sec 1000; sec 2000; sec 4300] "T2") <= k
                         < w_tick (sample_world [sec 1000; sec 2000; sec 4300] "T2") + 3)%nat ->
     fetch_time (sample_manager "T1" (sec 1000))
       <= w_clock (sample_world [sec 1000; sec 2000; sec 4300] "T2") k
       <= fetch_time (sample_manager "T1" (sec 1000)) + sec 3300).
  { intros k Hk. cbn in Hk.
    destruct k as [|[|[|k]]]; [| | |lia]; vm_compute; split; discriminate. }
  exact (conj H (header_calls_in_window 3 _ _ H)).
Defined.
